(** * ICONPortfolio: a shallow embedding of the provisioning client

    The client is the JavaScript class [ICONPortfolio]: three instance
    fields ([octokit], [user], [repository]) and six methods, each a
    single request to the GitHub REST API wrapped in [try]/[catch].

    The embedding follows the class method by method.  JavaScript values
    are a small data type, every method is a computation in a state and
    exception monad whose state holds the instance fields together with
    the console and the list of requests that left the process, and the
    free identifiers of the module (the ones it never declares) are looked
    up in a host record. *)

From Stdlib Require Import String Ascii List NArith ZArith Bool Lia.
Import ListNotations.
Open Scope string_scope.
Set Warnings "-register-all".

(** ** JavaScript values *)

Inductive Value : Type :=
| VUndefined
| VNull
| VBool (b : bool)
| VStr (s : string)
| VObj (fields : list (string * Value)).

(** What the remote side does with a request: the promise returned by
    [request] is either fulfilled with a response or rejected. *)
Inductive Settled : Type :=
| Fulfilled (response : Value)
| Rejected (reason : Value).

(** What a [throw] carries.  [ReferenceError x]: the identifier [x] is
    not bound in any enclosing scope.  [TypeError base p]: property [p]
    was read from [base], which is [null] or [undefined].  [Reason v]:
    library code threw [v], as the reason of a rejected promise that was
    awaited or as the error of a constructor. *)
Inductive Thrown : Type :=
| ReferenceError (identifier : string)
| TypeError (base : Value) (property : string)
| Reason (v : Value).

Inductive Completion (A : Type) : Type :=
| Normal (a : A)
| Throw (e : Thrown).
Arguments Normal {A} a.
Arguments Throw {A} e.

Record Request : Type := mkRequest { route : string; parameters : Value }.

(** The instance fields of the class, all [null] after construction. *)
Record ICONPortfolio : Type := mkClient {
  octokit : Value;
  user : Value;
  repository : Value
}.

(** What the process has done to the outside so far, oldest first:
    the arguments of [console.log], the requests handed to the remote
    side, and how many identifiers were drawn from [uuidv4]. *)
Record World : Type := mkWorld {
  console : list Value;
  network : list Request;
  drawn : nat
}.

Record State : Type := mkState { this : ICONPortfolio; world : World }.

(** The remote side answers a request knowing the requests before it. *)
Definition Remote : Type := list Request -> Request -> Settled.

(** Everything the module takes from its host: the environment variable
    read as [process.env.AUTH_TOKEN], the [uuidv4] generator (its n-th
    draw), and the bindings the global scope gives to the two identifiers
    the module uses without declaring them.  The module itself imports
    [Octokit], [dotenv] and [uuidv4] and declares [ICONPortfolio] and
    [icon]; on a stock host neither [octokit] nor [repository] is a
    global, which is [stock_host] below. *)
Record Host : Type := mkHost {
  AUTH_TOKEN : option string;
  uuidv4 : nat -> string;
  global_octokit : option Remote;
  global_repository : option Value
}.

Definition nullish (v : Value) : bool :=
  match v with VUndefined | VNull => true | _ => false end.

(** [!v] *)
Definition falsy (v : Value) : bool :=
  match v with
  | VUndefined | VNull | VBool false | VStr "" => true
  | _ => false
  end.

Fixpoint assoc (k : string) (fields : list (string * Value)) : Value :=
  match fields with
  | [] => VUndefined
  | (k', v) :: rest => if String.eqb k k' then v else assoc k rest
  end.

(** [v.p] *)
Definition get (v : Value) (p : string) : Completion Value :=
  match v with
  | VUndefined | VNull => Throw (TypeError v p)
  | VObj fields => Normal (assoc p fields)
  | VBool _ | VStr _ => Normal VUndefined
  end.

(** [v?.p] *)
Definition optional (v : Value) (p : string) : Value :=
  match v with
  | VObj fields => assoc p fields
  | VUndefined | VNull | VBool _ | VStr _ => VUndefined
  end.

(** The string a template literal substitutes for [${v}]. *)
Definition to_string (v : Value) : string :=
  match v with
  | VUndefined => "undefined"
  | VNull => "null"
  | VBool true => "true"
  | VBool false => "false"
  | VStr s => s
  | VObj _ => "[object Object]"
  end.

Definition of_env (o : option string) : Value :=
  match o with Some s => VStr s | None => VUndefined end.

(** ** The monad of method bodies *)

Definition M (A : Type) : Type := State -> Completion A * State.

Definition ret {A} (a : A) : M A := fun st => (Normal a, st).

Definition raise {A} (e : Thrown) : M A := fun st => (Throw e, st).

Definition bind {A B} (m : M A) (k : A -> M B) : M B :=
  fun st =>
    match m st with
    | (Normal a, st') => k a st'
    | (Throw e, st') => (Throw e, st')
    end.

(** [try { body } catch (error) { handler }] *)
Definition try_catch {A} (body : M A) (handler : Thrown -> M A) : M A :=
  fun st =>
    match body st with
    | (Normal a, st') => (Normal a, st')
    | (Throw e, st') => handler e st'
    end.

Declare Scope js_scope.
Delimit Scope js_scope with js.
Notation "x <- m ;; k" := (bind m (fun x => k))
  (at level 61, m at next level, right associativity) : js_scope.
Notation "m ;; k" := (bind m (fun _ => k))
  (at level 61, right associativity) : js_scope.
Open Scope js_scope.

Definition lift {A} (c : Completion A) : M A := fun st => (c, st).

Definition this_user : M Value := fun st => (Normal (user (this st)), st).

Definition this_repository : M Value :=
  fun st => (Normal (repository (this st)), st).

Definition set_octokit (v : Value) : M unit :=
  fun st =>
    (Normal tt,
     mkState (mkClient v (user (this st)) (repository (this st))) (world st)).

Definition set_user (v : Value) : M unit :=
  fun st =>
    (Normal tt,
     mkState (mkClient (octokit (this st)) v (repository (this st))) (world st)).

Definition set_repository (v : Value) : M unit :=
  fun st =>
    (Normal tt,
     mkState (mkClient (octokit (this st)) (user (this st)) v) (world st)).

(** [console.log(v)] *)
Definition log (v : Value) : M unit :=
  fun st =>
    let w := world st in
    (Normal tt,
     mkState (this st) (mkWorld (console w ++ [v]) (network w) (drawn w))).

Definition when (b : bool) (m : M unit) : M unit := if b then m else ret tt.

(** ** Buffers and base64

    [Buffer.from(s)] is the UTF-8 byte sequence of the text, and
    [toString('base64')] is the encoding of RFC 4648 section 4: three
    bytes become four digits of the standard alphabet, and a final group
    of one or two bytes is padded with [=].

    A string of the model is a well-formed text, given by its UTF-8
    bytes.  A JavaScript string can also hold an unpaired surrogate,
    which [Buffer.from] replaces by U+FFFD before encoding; such strings
    have no UTF-8 form and are outside the model, so nothing below
    speaks of them: every statement about the encoding is a statement
    about the bytes of the buffer. *)

Definition alphabet : list ascii :=
  list_ascii_of_string
    "ABCDEFGHIJKLMNOPQRSTUVWXYZabcdefghijklmnopqrstuvwxyz0123456789+/".

Definition pad : ascii := "="%char.

Definition digit (n : N) : ascii := nth (N.to_nat n) alphabet pad.

Definition Buffer : Type := list Byte.byte.

Definition Buffer_from (s : string) : Buffer := list_byte_of_string s.

Fixpoint toString_base64 (b : Buffer) : string :=
  match b with
  | [] => ""
  | [x] =>
      let x := Byte.to_N x in
      String (digit (x / 4)) (String (digit (x mod 4 * 16))
        (String pad (String pad "")))
  | [x; y] =>
      let x := Byte.to_N x in
      let y := Byte.to_N y in
      String (digit (x / 4)) (String (digit (x mod 4 * 16 + y / 16))
        (String (digit (y mod 16 * 4)) (String pad "")))
  | x :: y :: z :: rest =>
      let x := Byte.to_N x in
      let y := Byte.to_N y in
      let z := Byte.to_N z in
      String (digit (x / 4)) (String (digit (x mod 4 * 16 + y / 16))
        (String (digit (y mod 16 * 4 + z / 64)) (String (digit (z mod 64))
          (toString_base64 rest))))
  end%N.

(** The inverse direction, which the class itself never needs: the
    reader of an uploaded file decodes four digits into three bytes and
    accepts padding only in the last group. *)

Fixpoint index_of (c : ascii) (l : list ascii) (i : N) : option N :=
  match l with
  | [] => None
  | x :: rest => if Ascii.eqb c x then Some i else index_of c rest (N.succ i)
  end.

Definition sextet (c : ascii) : option N := index_of c alphabet 0%N.

Definition is_pad (c : ascii) : bool := Ascii.eqb c pad.

Definition empty (s : string) : bool :=
  match s with EmptyString => true | _ => false end.

Definition obind {A B} (o : option A) (k : A -> option B) : option B :=
  match o with Some a => k a | None => None end.

Fixpoint from_base64 (s : string) : option Buffer :=
  match s with
  | EmptyString => Some []
  | String c0 (String c1 (String c2 (String c3 rest))) =>
      obind (sextet c0) (fun s0 =>
      obind (sextet c1) (fun s1 =>
      obind (Byte.of_N (s0 * 4 + s1 / 16)) (fun x =>
      if is_pad c2 then
        if is_pad c3 && empty rest then Some [x] else None
      else
        obind (sextet c2) (fun s2 =>
        obind (Byte.of_N (s1 mod 16 * 16 + s2 / 4)) (fun y =>
        if is_pad c3 then
          if empty rest then Some [x; y] else None
        else
          obind (sextet c3) (fun s3 =>
          obind (Byte.of_N (s2 mod 4 * 64 + s3)) (fun z =>
          obind (from_base64 rest) (fun tail =>
          Some (x :: y :: z :: tail)))))))))
  | _ => None
  end%N.

(** [convertToBase64(convertString)] *)
Definition convertToBase64 (convertString : string) : string :=
  toString_base64 (Buffer_from convertString).

(** ** The API client

    [new Octokit({auth: token})].  Without a token (any falsy value) the
    client is built unauthenticated; a token that is there must be a
    string, and for any other value the constructor throws the error of
    its token strategy. *)

Definition not_a_string : Value :=
  VObj [("message",
         VStr "[@octokit/auth-token] Token passed to createTokenAuth is not a string")].

(** The tokens the constructor takes: none, or a string. *)
Definition acceptable (token : Value) : bool :=
  falsy token || match token with VStr _ => true | _ => false end.

Definition new_Octokit (token : Value) : Completion Value :=
  if acceptable token then Normal (VObj [("auth", token)])
  else Throw (Reason not_a_string).

Section Methods.

Variable host : Host.

(** [uuidv4()] *)
Definition draw_uuid : M string :=
  fun st =>
    let w := world st in
    (Normal (uuidv4 host (drawn w)),
     mkState (this st) (mkWorld (console w) (network w) (S (drawn w)))).

(** Evaluating the bare identifier [octokit]. *)
Definition resolve_octokit : M Remote :=
  match global_octokit host with
  | Some api => ret api
  | None => raise (ReferenceError "octokit")
  end.

(** Evaluating the bare identifier [repository] where no local of that
    name is in scope. *)
Definition resolve_repository : M Value :=
  match global_repository host with
  | Some v => ret v
  | None => raise (ReferenceError "repository")
  end.

(** [await api.request(route, parameters)]: the request leaves the
    process, and the awaited promise gives the response or throws the
    rejection reason. *)
Definition request (api : Remote) (r : string) (p : Value) : M Value :=
  fun st =>
    let w := world st in
    let rq := mkRequest r p in
    let st' := mkState (this st)
                 (mkWorld (console w) (network w ++ [rq]) (drawn w)) in
    match api (network w) rq with
    | Fulfilled resp => (Normal resp, st')
    | Rejected why => (Throw (Reason why), st')
    end.

(** [error.response]: the errors of the language carry no such
    property; a rejection reason is whatever the remote side made it. *)
Definition error_response (e : Thrown) : Completion Value :=
  match e with
  | Reason v => get v "response"
  | ReferenceError _ | TypeError _ _ => Normal VUndefined
  end.

(** [error.response?.data?.message] *)
Definition remote_message (e : Thrown) : M Value :=
  r <- lift (error_response e) ;;
  ret (optional (optional r "data") "message").

(** [console.log(error.response?.data?.message ?? fallback)], the body of
    every [catch] block; the fallback is evaluated only when needed. *)
Definition report (e : Thrown) (fallback : M string) : M unit :=
  m <- remote_message e ;;
  if nullish m then (s <- fallback ;; log (VStr s)) else log m.

(** *** getUser *)

Definition getUser_try (username : string) : M unit :=
  api <- resolve_octokit ;;
  resp <- request api ("GET /users/" ++ username)
            (VObj [("username", VStr username)]) ;;
  data <- lift (get resp "data") ;;
  set_user data ;;
  u <- this_user ;;
  login <- lift (get u "login") ;;
  log (VStr (to_string login ++ " is authenticated")).

Definition getUser_catch (username : string) (error : Thrown) : M unit :=
  report error
    (ret ("Can't get username for user " ++ username
          ++ ". Please try again.")).

Definition getUser (username : string) : M Value :=
  try_catch (getUser_try username) (getUser_catch username) ;;
  ret VUndefined.

(** *** authenticate *)

(** The value of the parameter [token]: the default initialiser
    [process.env.AUTH_TOKEN] replaces an argument that is [undefined]. *)
Definition token_parameter (token : Value) : Value :=
  match token with
  | VUndefined => of_env (AUTH_TOKEN host)
  | _ => token
  end.

Definition authenticate (username : string) (token : Value) : M Value :=
  let token := token_parameter token in
  when (falsy (of_env (AUTH_TOKEN host)) && falsy token)
    (log (VStr "Can't authenticate to Octokit with invalid token. Please recheck your token")) ;;
  handle <- lift (new_Octokit token) ;;
  set_octokit handle ;;
  getUser username ;;
  ret VUndefined.

(** *** createRepository *)

Definition createRepository_try (name : Value) : M unit :=
  api <- resolve_octokit ;;
  nm <- (if nullish name
         then (u <- draw_uuid ;; ret (VStr ("ICON Web Portfolio " ++ u)))
         else ret name) ;;
  resp <- request api "POST /user/repos" (VObj [("name", nm)]) ;;
  data <- lift (get resp "data") ;;
  set_repository data ;;
  r <- this_repository ;;
  n <- lift (get r "name") ;;
  log (VStr (to_string n ++ " was created")).

Definition createRepository_catch (error : Thrown) : M unit :=
  report error (ret "Can't create a new repository. Please try again.").

Definition createRepository (name : Value) : M Value :=
  try_catch (createRepository_try name) createRepository_catch ;;
  ret VUndefined.

(** *** getRepository *)

Definition getRepository_try (name : string) : M unit :=
  u <- this_user ;;
  owner <- lift (get u "login") ;;
  api <- resolve_octokit ;;
  response <- request api
                ("GET /repos/" ++ to_string owner ++ "/" ++ name)
                (VObj [("owner", owner); ("repo", VStr name)]) ;;
  data <- lift (get response "data") ;;
  set_repository data ;;
  r <- this_repository ;;
  n <- lift (get r "name") ;;
  log (VStr ("Successfully get detail of " ++ to_string n)).

Definition getRepository_catch (name : string) (error : Thrown) : M unit :=
  report error (ret ("Can't get the detail of the repository " ++ name)).

Definition getRepository (name : string) : M Value :=
  try_catch (getRepository_try name) (getRepository_catch name) ;;
  ret VUndefined.

(** *** uploadFileToRepository *)

Definition uploadFileToRepository_try (filePath content : string) : M unit :=
  u <- this_user ;;
  r <- this_repository ;;
  when (falsy u || falsy r)
    (log (VStr "Please authenticate and create repository methods before uploading a file")) ;;
  u <- this_user ;;
  owner <- lift (get u "login") ;;
  r <- this_repository ;;
  repository <- lift (get r "name") ;;
  let base64Content := convertToBase64 content in
  api <- resolve_octokit ;;
  request api
    ("PUT /repos/" ++ to_string owner ++ "/" ++ to_string repository
     ++ "/contents/" ++ filePath)
    (VObj [("owner", owner);
           ("repo", repository);
           ("path", VStr filePath);
           ("message", VStr ("create a new " ++ filePath));
           ("content", VStr base64Content)]) ;;
  log (VStr (filePath ++ " is uploaded successfully")).

(** The [const repository] of the [try] block is out of scope in the
    [catch] block, so the identifier in the fallback is a free one. *)
Definition uploadFileToRepository_catch (filePath : string) (error : Thrown)
  : M unit :=
  report error
    (repository <- resolve_repository ;;
     ret ("Can't upload " ++ filePath ++ " to the repository "
          ++ to_string repository)).

Definition uploadFileToRepository (filePath content : string) : M Value :=
  try_catch (uploadFileToRepository_try filePath content)
            (uploadFileToRepository_catch filePath) ;;
  ret VUndefined.

(** *** createGithubPage *)

Definition createGithubPage_try : M unit :=
  u <- this_user ;;
  owner <- lift (get u "login") ;;
  r <- this_repository ;;
  repository <- lift (get r "name") ;;
  api <- resolve_octokit ;;
  response <- request api
                ("POST /repos/" ++ to_string owner ++ "/"
                 ++ to_string repository ++ "/pages")
                (VObj [("owner", owner);
                       ("repo", repository);
                       ("source", VObj [("branch", VStr "main");
                                        ("path", VStr "/")]);
                       ("build_type", VStr "workflow")]) ;;
  data <- lift (get response "data") ;;
  url <- lift (get data "url") ;;
  log (VStr (to_string url ++ " is being created")).

Definition createGithubPage_catch (error : Thrown) : M unit :=
  report error
    (r <- this_repository ;;
     n <- lift (get r "name") ;;
     ret ("Can't create a Github Pages for the repository " ++ to_string n)).

Definition createGithubPage : M Value :=
  try_catch createGithubPage_try createGithubPage_catch ;;
  ret VUndefined.

End Methods.


(** ** Clients, hosts and scripts *)

(** [new ICONPortfolio()] in a process that has done nothing yet. *)
Definition fresh : State :=
  mkState (mkClient VNull VNull VNull) (mkWorld [] [] 0).

(** A host whose global scope binds neither [octokit] nor [repository]. *)
Definition stock_host (token : option string) (uuid : nat -> string) : Host :=
  mkHost token uuid None None.

(** The calls a script can make on a client. *)
Inductive Op : Type :=
| Authenticate (username : string) (token : Value)
| GetUser (username : string)
| CreateRepository (name : Value)
| GetRepository (name : string)
| UploadFileToRepository (filePath content : string)
| CreateGithubPage.

Definition run_op (host : Host) (op : Op) : M Value :=
  match op with
  | Authenticate username token => authenticate host username token
  | GetUser username => getUser host username
  | CreateRepository name => createRepository host name
  | GetRepository name => getRepository host name
  | UploadFileToRepository filePath content =>
      uploadFileToRepository host filePath content
  | CreateGithubPage => createGithubPage host
  end.

(** The [try] block an operation enters. *)
Definition try_block (host : Host) (op : Op) : M unit :=
  match op with
  | Authenticate username _ => getUser_try host username
  | GetUser username => getUser_try host username
  | CreateRepository name => createRepository_try host name
  | GetRepository name => getRepository_try host name
  | UploadFileToRepository filePath content =>
      uploadFileToRepository_try host filePath content
  | CreateGithubPage => createGithubPage_try host
  end.

(** The states a process can be in after any sequence of calls on a
    freshly constructed client, whether or not the caller survives a
    call that throws. *)
Inductive reachable (host : Host) : State -> Prop :=
| reach_fresh : reachable host fresh
| reach_step (op : Op) (st : State) :
    reachable host st -> reachable host (snd (run_op host op st)).

(** The example script at the end of the module: the top-level [await]s
    run in order and the first call that throws ends the script. *)
Fixpoint run_script (host : Host) (ops : list Op) : M unit :=
  match ops with
  | [] => ret tt
  | op :: rest => run_op host op ;; run_script host rest
  end.

Definition example_page : string :=
  "
<!DOCTYPE html>
<html>
<head>
<title>Page Title</title>
</head>
<body>

<h1>My First Heading</h1>
<p>My first paragraph.</p>

</body>
</html>
".

Definition example_script : list Op :=
  [Authenticate "iconclub" VUndefined;
   CreateRepository VUndefined;
   UploadFileToRepository "index.html" example_page;
   CreateGithubPage].

(** The statements an operation runs before it enters its [try] block:
    only [authenticate] has any, and they are outside every [try], so
    what the constructor throws goes straight to the caller. *)
Definition prelude (host : Host) (op : Op) : M unit :=
  match op with
  | Authenticate username token =>
      let token := token_parameter host token in
      when (falsy (of_env (AUTH_TOKEN host)) && falsy token)
        (log (VStr "Can't authenticate to Octokit with invalid token. Please recheck your token")) ;;
      handle <- lift (new_Octokit token) ;;
      set_octokit handle
  | _ => ret tt
  end.

(** Whether an operation gets as far as its [try] block: all do, except
    an [authenticate] whose token the constructor refuses. *)
Definition constructs (host : Host) (op : Op) : bool :=
  match op with
  | Authenticate _ token => acceptable (token_parameter host token)
  | _ => true
  end.

(** The [catch] block an operation falls into. *)
Definition catch_block (host : Host) (op : Op) : Thrown -> M unit :=
  match op with
  | Authenticate username _ => getUser_catch username
  | GetUser username => getUser_catch username
  | CreateRepository _ => createRepository_catch
  | GetRepository name => getRepository_catch name
  | UploadFileToRepository filePath _ =>
      uploadFileToRepository_catch host filePath
  | CreateGithubPage => createGithubPage_catch
  end.

(** ** Vocabulary of the properties *)

(** The caller of an operation can tell that it failed: every operation
    that succeeds evaluates to [undefined], so a failure that is surfaced
    is any other completion (a value that describes it, or a throw). *)
Definition surfaces_failure (c : Completion Value) : Prop :=
  c <> Normal VUndefined.

(** A [try] block that fails fast on an unset session never gets as far
    as reading a property of [null] or [undefined]. *)
Definition stops_at_guard (c : Completion unit) : Prop :=
  forall v p, c <> Throw (TypeError v p).

(** A session in which nothing has been provisioned yet. *)
Definition unset (st : State) : Prop :=
  user (this st) = VNull /\ repository (this st) = VNull
  /\ network (world st) = [].

(** The remote side rejects with error objects, as the API client does,
    never with [null] or [undefined]. *)
Definition rejects_with_objects (host : Host) : Prop :=
  forall api history rq v,
    global_octokit host = Some api -> api history rq = Rejected v ->
    nullish v = false.

(** What a [catch] block logs for the rejection reason [why]. *)
Definition reported (why : Value) (fallback : string) : Value :=
  let m := optional (optional (optional why "response") "data") "message" in
  if nullish m then VStr fallback else m.

(** The request [createGithubPage] builds. *)
Definition pages_request (owner repo : Value) : Request :=
  mkRequest
    ("POST /repos/" ++ to_string owner ++ "/" ++ to_string repo ++ "/pages")
    (VObj [("owner", owner);
           ("repo", repo);
           ("source", VObj [("branch", VStr "main"); ("path", VStr "/")]);
           ("build_type", VStr "workflow")]).

(** ** Concrete hosts and sessions used in the examples *)

Definition no_uuid : nat -> string := fun _ => "".

(** A host on which the identifier [octokit] does resolve, to a remote
    side that settles every request the same way. *)
Definition answering (s : Settled) : Host :=
  mkHost None no_uuid (Some (fun _ _ => s)) None.

(** A client whose three fields have been filled in. *)
Definition provisioned : State :=
  mkState
    (mkClient (VObj [("auth", VStr "tok_abc")])
       (VObj [("login", VStr "octo-user")])
       (VObj [("name", VStr "demo-site")]))
    (mkWorld [] [] 0).

(** The reason of a 404: the response body carries a message. *)
Definition not_found : Value :=
  VObj [("response",
         VObj [("data", VObj [("message", VStr "Not Found")])])].

(** The reason of a failure whose response body carries no message. *)
Definition server_error : Value :=
  VObj [("response", VObj [("data", VObj [])])].

Definition pages_created : Value :=
  VObj [("data",
         VObj [("url", VStr "https://octo-user.github.io/demo-site/")])].

(** ** The requests of the class and other shorthands of the statements *)

(** Whether the identifier [octokit] resolves on the host. *)
Definition resolves (host : Host) : bool :=
  match global_octokit host with Some _ => true | None => false end.

(** The session once [authenticate] has stored the handle it built. *)
Definition with_handle (token : Value) (st : State) : State :=
  mkState
    (mkClient (VObj [("auth", token)]) (user (this st))
       (repository (this st)))
    (world st).

(** The request [getUser] builds. *)
Definition users_request (username : string) : Request :=
  mkRequest ("GET /users/" ++ username) (VObj [("username", VStr username)]).

(** The request [createRepository] builds. *)
Definition repos_request (name : Value) : Request :=
  mkRequest "POST /user/repos" (VObj [("name", name)]).

(** The request [getRepository] builds. *)
Definition repo_request (owner : Value) (name : string) : Request :=
  mkRequest ("GET /repos/" ++ to_string owner ++ "/" ++ name)
    (VObj [("owner", owner); ("repo", VStr name)]).

(** The request [uploadFileToRepository] builds. *)
Definition contents_request (owner repo : Value) (filePath content : string)
  : Request :=
  mkRequest
    ("PUT /repos/" ++ to_string owner ++ "/" ++ to_string repo
     ++ "/contents/" ++ filePath)
    (VObj [("owner", owner);
           ("repo", repo);
           ("path", VStr filePath);
           ("message", VStr ("create a new " ++ filePath));
           ("content", VStr (convertToBase64 content))]).

(** The name [createRepository] makes up from the n-th draw. *)
Definition default_name (host : Host) (n : nat) : Value :=
  VStr ("ICON Web Portfolio " ++ uuidv4 host n).

(** The outside world after one more request and one more console line. *)
Definition sent (rq : Request) (line : Value) (st : State) : World :=
  mkWorld (console (world st) ++ [line]) (network (world st) ++ [rq])
    (drawn (world st)).

(** What the guard of [uploadFileToRepository] writes to the console. *)
Definition guard_lines (st : State) : list Value :=
  if falsy (user (this st)) || falsy (repository (this st))
  then [VStr "Please authenticate and create repository methods before uploading a file"]
  else [].

(** The four calls of the example script, with arguments of one's own. *)
Definition provisioning (username : string) (token name : Value)
  (filePath content : string) : list Op :=
  [Authenticate username token;
   CreateRepository name;
   UploadFileToRepository filePath content;
   CreateGithubPage].

(** A digit of the base64 alphabet, or the padding character. *)
Definition base64_character (c : ascii) : bool :=
  match sextet c with Some _ => true | None => is_pad c end.

(** A response body that has every field the class reads. *)
Definition canned : Value :=
  VObj [("data",
         VObj [("login", VStr "octo-user");
               ("name", VStr "demo-site");
               ("url", VStr "https://octo-user.github.io/demo-site/")])].

(** A host with a token in its environment and no stray globals. *)
Definition configured_host : Host :=
  mkHost (Some "tok_env") no_uuid None None.

(** * Proofs *)

(** ** Tactics *)

Ltac js_unfold :=
  unfold run_op, try_block, catch_block, prelude, new_Octokit, acceptable,
    authenticate, token_parameter, getUser, getUser_try, getUser_catch,
    createRepository, createRepository_try, createRepository_catch,
    getRepository, getRepository_try, getRepository_catch,
    uploadFileToRepository, uploadFileToRepository_try,
    uploadFileToRepository_catch,
    createGithubPage, createGithubPage_try, createGithubPage_catch,
    report, remote_message, error_response, resolve_octokit,
    resolve_repository, request, draw_uuid, when, log,
    set_octokit, set_user, set_repository, this_user, this_repository,
    try_catch, bind, lift, raise, ret in *.

Ltac js_run := js_unfold; cbn in *.

(** Case analysis on the innermost scrutinee the goal is stuck on. *)
Ltac js_case :=
  match goal with
  | |- context [match ?x with _ => _ end] =>
      lazymatch x with
      | context [match _ with _ => _ end] => fail
      | _ => destruct x; cbn
      end
  end.

Ltac destruct_state st :=
  let o := fresh "o" in let u := fresh "u" in let r := fresh "r" in
  let c := fresh "c" in let n := fresh "n" in let d := fresh "d" in
  destruct st as [[o u r] [c n d]]; cbn in *.

(** ** Base64 *)

Example base64_three : convertToBase64 "Man" = "TWFu".
Proof. reflexivity. Qed.

Example base64_two : convertToBase64 "Ma" = "TWE=".
Proof. reflexivity. Qed.

Example base64_one : convertToBase64 "M" = "TQ==".
Proof. reflexivity. Qed.

Example base64_empty : convertToBase64 "" = "".
Proof. reflexivity. Qed.

Example base64_multibyte : convertToBase64 "Tên đội" = "VMOqbiDEkeG7mWk=".
Proof. reflexivity. Qed.

Example base64_page :
  from_base64 (convertToBase64 "<html></html>")
  = Some (Buffer_from "<html></html>").
Proof. reflexivity. Qed.

Section ByThrees.

Variable A : Type.
Variable P : list A -> Prop.
Hypothesis P0 : P [].
Hypothesis P1 : forall x, P [x].
Hypothesis P2 : forall x y, P [x; y].
Hypothesis P3 : forall x y z l, P l -> P (x :: y :: z :: l).

(** Induction that follows the groups of the encoder. *)
Lemma list_ind_by_threes : forall l, P l.
Proof.
  assert (H : forall l,
             P l /\ (forall x, P (x :: l)) /\ (forall x y, P (x :: y :: l))).
  { induction l as [|a l (IH0 & IH1 & IH2)]; repeat split; auto. }
  intro l. apply H.
Qed.

End ByThrees.

Lemma sextet_digit (n : N) : (n < 64)%N -> sextet (digit n) = Some n.
Proof.
  intro H. destruct n as [|p]; [reflexivity|].
  do 6 (destruct p as [p|p|]; try reflexivity); lia.
Qed.

Lemma digit_not_pad (n : N) : (n < 64)%N -> is_pad (digit n) = false.
Proof.
  intro H. destruct n as [|p]; [reflexivity|].
  do 6 (destruct p as [p|p|]; try reflexivity); lia.
Qed.

Lemma to_N_lt (x : Byte.byte) : (Byte.to_N x < 256)%N.
Proof. pose proof (Byte.to_N_bounded x). lia. Qed.

Lemma of_N_eq (n : N) (x : Byte.byte) :
  n = Byte.to_N x -> Byte.of_N n = Some x.
Proof. intros ->. apply Byte.of_to_N. Qed.

Local Ltac Zify.zify_post_hook ::= Z.to_euclidean_division_equations.

Lemma from_base64_toString (b : Buffer) :
  from_base64 (toString_base64 b) = Some b.
Proof.
  induction b as [|x|x y|x y z l IH] using list_ind_by_threes.
  - reflexivity.
  - pose proof (to_N_lt x). cbn [toString_base64 from_base64].
    rewrite !sextet_digit by lia. cbn [obind].
    rewrite (of_N_eq _ x) by lia. cbn [obind].
    reflexivity.
  - pose proof (to_N_lt x). pose proof (to_N_lt y).
    cbn [toString_base64 from_base64].
    rewrite !sextet_digit by lia. cbn [obind].
    rewrite (of_N_eq _ x) by lia. cbn [obind].
    rewrite digit_not_pad by lia.
    rewrite (of_N_eq _ y) by lia. cbn [obind].
    reflexivity.
  - pose proof (to_N_lt x). pose proof (to_N_lt y). pose proof (to_N_lt z).
    cbn [toString_base64 from_base64].
    rewrite !sextet_digit by lia. cbn [obind].
    rewrite (of_N_eq _ x) by lia. cbn [obind].
    rewrite !digit_not_pad by lia.
    rewrite (of_N_eq _ y) by lia. cbn [obind].
    rewrite (of_N_eq _ z) by lia. cbn [obind].
    fold toString_base64. rewrite IH. reflexivity.
Qed.

(** The encoder produces whole groups of four characters. *)
Lemma toString_base64_length (b : Buffer) :
  String.length (toString_base64 b) = 4 * ((List.length b + 2) / 3).
Proof.
  induction b as [|x|x y|x y z l IH] using list_ind_by_threes;
    try reflexivity.
  cbn [toString_base64 String.length List.length]. rewrite IH.
  replace (S (S (S (List.length l))) + 2) with (List.length l + 2 + 1 * 3)
    by lia.
  rewrite Nat.div_add by lia. lia.
Qed.

(** C8.  For every byte sequence, the empty one and the bytes of
    multi-byte text included, decoding what [convertToBase64] produces
    for it gives the same bytes back. *)
Theorem convertToBase64_round_trip (bytes : Buffer) :
  from_base64 (convertToBase64 (string_of_list_byte bytes)) = Some bytes.
Proof.
  unfold convertToBase64, Buffer_from.
  rewrite list_byte_of_string_of_list_byte.
  apply from_base64_toString.
Qed.

(** The same for a text: the decoded bytes are the bytes of the text. *)
Corollary convertToBase64_text (content : string) :
  from_base64 (convertToBase64 content) = Some (Buffer_from content).
Proof. apply from_base64_toString. Qed.

(** X26.  The encoding step loses nothing of the buffer: contents
    whose byte sequences differ are sent as different strings.  (This is
    about the bytes [Buffer.from] produced, not about the strings it was
    given.) *)
Theorem toString_base64_distinct (a b : Buffer) :
  a <> b -> toString_base64 a <> toString_base64 b.
Proof.
  intros Hne E. apply Hne.
  assert (H : Some a = Some b).
  { rewrite <- (from_base64_toString a), <- (from_base64_toString b).
    now rewrite E. }
  now injection H.
Qed.

Lemma toString_base64_distinct_witness :
  toString_base64 (Buffer_from "M") <> toString_base64 (Buffer_from "Ma").
Proof.
  apply (toString_base64_distinct (Buffer_from "M") (Buffer_from "Ma")).
  discriminate.
Defined.

(** ** General facts about the operations *)

(** Every operation is its prelude, then its [try] block with its
    [catch] block, and evaluates to [undefined]. *)
Lemma run_op_shape (host : Host) (op : Op) (st : State) :
  run_op host op st =
  (prelude host op ;;
   try_catch (try_block host op) (catch_block host op) ;;
   ret VUndefined) st.
Proof.
  destruct op; cbn; try reflexivity.
  unfold authenticate, getUser, bind.
  repeat js_case; reflexivity.
Qed.

Lemma prelude_normal (host : Host) (op : Op) (st : State) :
  constructs host op = true -> fst (prelude host op st) = Normal tt.
Proof.
  destruct op; cbn [constructs]; intro H; unfold prelude, new_Octokit;
    rewrite ?H; js_run; repeat js_case; reflexivity.
Qed.

(** A token the constructor refuses ends [authenticate] on the spot: the
    error goes to the caller and no field is written. *)
Lemma prelude_refused (host : Host) (op : Op) (st : State) :
  constructs host op = false ->
  fst (run_op host op st) = Throw (Reason not_a_string)
  /\ this (snd (run_op host op st)) = this st
  /\ network (world (snd (run_op host op st))) = network (world st).
Proof.
  destruct op; cbn [constructs]; try discriminate. intro H.
  unfold run_op, authenticate, new_Octokit. rewrite H.
  destruct_state st. js_run. repeat js_case; repeat split.
Qed.

(** Nothing is ever taken back from the console. *)
Lemma console_grows (host : Host) (op : Op) (st : State) :
  exists more,
    console (world (snd (run_op host op st)))
    = (console (world st) ++ more)%list.
Proof.
  destruct_state st.
  destruct op; js_run; repeat js_case;
    rewrite <- ?app_assoc; eauto; exists []; rewrite app_nil_r; reflexivity.
Qed.

(** X21.  The operations whose [catch] block uses nothing but the
    parameters ([authenticate], [getUser], [createRepository],
    [getRepository]) complete normally with [undefined] whatever happens
    in the [try] block, as long as rejections are error objects and the
    token given to [authenticate] is one the constructor takes (none, or
    a string). *)
Lemma siblings_never_throw (host : Host) (op : Op) (st : State) :
  rejects_with_objects host ->
  constructs host op = true ->
  match op with
  | UploadFileToRepository _ _ | CreateGithubPage => False
  | _ => True
  end ->
  fst (run_op host op st) = Normal VUndefined.
Proof.
  intros Hsane Hc Hop. destruct_state st. unfold rejects_with_objects in Hsane.
  destruct (global_octokit host) as [api|] eqn:Hapi.
  - specialize (fun h r v => Hsane api h r v eq_refl).
    destruct op; try contradiction; cbn [constructs] in Hc;
      unfold run_op, authenticate, new_Octokit; rewrite ?Hc; clear Hc;
      js_run; rewrite ?Hapi; unfold get; cbn;
      repeat match goal with
        | |- context [api ?h ?r] =>
            let E := fresh "E" in
            destruct (api h r) as [?|[]] eqn:E; cbn;
            try (apply Hsane in E; cbn in E; discriminate E)
        | _ => js_case
        end; reflexivity.
  - destruct op; try contradiction; cbn [constructs] in Hc;
      unfold run_op, authenticate, new_Octokit; rewrite ?Hc; clear Hc;
      js_run; rewrite ?Hapi; unfold get; cbn;
      repeat js_case; reflexivity.
Qed.

(** ** uploadFileToRepository on a session that is not set up *)

(** X18.  What the guard does achieve when User or Repository is
    [null]: the message is logged before anything else, no request leaves
    the process and the fields stay as they are, on every host. *)
Lemma upload_unset_logs_precondition
  (host : Host) (st : State) (filePath content : string) :
  user (this st) = VNull \/ repository (this st) = VNull ->
  let st' := snd (uploadFileToRepository host filePath content st) in
  (exists rest,
     console (world st') =
     (console (world st)
        ++ VStr "Please authenticate and create repository methods before uploading a file"
        :: rest)%list)
  /\ network (world st') = network (world st)
  /\ this st' = this st.
Proof.
  destruct_state st. intros [-> | ->].
  - js_run. destruct (global_repository host); cbn;
      rewrite <- ?app_assoc; cbn; eauto.
  - js_run. rewrite orb_true_r. cbn.
    destruct u; cbn; destruct (global_repository host); cbn;
      rewrite <- ?app_assoc; cbn; eauto.
Qed.

(** C1.  On a freshly constructed client (User and Repository unset)
    [uploadFileToRepository] does not stop at its guard: after logging the
    precondition message the [try] block goes on to read [login] from the
    [null] user, and what reaches the caller is the reference error
    raised by the [catch] block, with no request sent. *)
Theorem upload_unset_reads_null :
  let host := stock_host None no_uuid in
  let body :=
    uploadFileToRepository_try host "index.html" "<html></html>" fresh in
  let call := uploadFileToRepository host "index.html" "<html></html>" fresh in
  (user (this fresh) = VNull \/ repository (this fresh) = VNull)
  /\ console (world (snd body))
     = [VStr "Please authenticate and create repository methods before uploading a file"]
  /\ fst body = Throw (TypeError VNull "login")
  /\ ~ stops_at_guard (fst body)
  /\ fst call = Throw (ReferenceError "repository")
  /\ network (world (snd call)) = [].
Proof.
  cbv zeta. split; [left; reflexivity|]. repeat split.
  intro H. apply (H VNull "login"). reflexivity.
Qed.

(** ** authenticate without a token *)

(** C2, as stated, fails: with no token argument and no [AUTH_TOKEN] the
    call on a fresh client completes normally with [undefined], so no
    configuration error reaches the caller. *)
Lemma tokenless_authenticate_returns_undefined :
  let host := stock_host None no_uuid in
  AUTH_TOKEN host = None
  /\ fst (authenticate host "iconclub" VUndefined fresh) = Normal VUndefined
  /\ ~ surfaces_failure (fst (authenticate host "iconclub" VUndefined fresh)).
Proof.
  cbv zeta. repeat split. intro H. apply H. reflexivity.
Qed.

(** C2, amended.  When no token is resolvable, [authenticate] in the
    module as written ([octokit] unbound) performs no network call and
    logs the configuration message before anything else; it surfaces no
    error, though: it stores the handle built with an undefined token,
    lets [getUser] log its own failure, and evaluates to [undefined]. *)
Theorem authenticate_without_token
  (host : Host) (username : string) (st : State) :
  AUTH_TOKEN host = None ->
  global_octokit host = None ->
  authenticate host username VUndefined st =
  (Normal VUndefined,
   mkState
     (mkClient (VObj [("auth", VUndefined)]) (user (this st))
        (repository (this st)))
     (mkWorld
        (console (world st)
           ++ [VStr "Can't authenticate to Octokit with invalid token. Please recheck your token";
               VStr ("Can't get username for user " ++ username
                     ++ ". Please try again.")])
        (network (world st)) (drawn (world st)))).
Proof.
  intros Htoken Hapi. destruct_state st.
  unfold authenticate, token_parameter. rewrite Htoken.
  js_run. rewrite Hapi. cbn. rewrite <- app_assoc. reflexivity.
Qed.

Lemma authenticate_without_token_witness :
  authenticate (stock_host None no_uuid) "iconclub" VUndefined fresh =
  (Normal VUndefined,
   mkState (mkClient (VObj [("auth", VUndefined)]) VNull VNull)
     (mkWorld
        [VStr "Can't authenticate to Octokit with invalid token. Please recheck your token";
         VStr "Can't get username for user iconclub. Please try again."]
        [] 0)).
Proof.
  apply (authenticate_without_token (stock_host None no_uuid) "iconclub" fresh);
    reflexivity.
Defined.

(** ** Expected failures *)

(** C3.  Two operations do throw on expected failures.  On a fresh
    client [uploadFileToRepository] throws a reference error (the fallback
    message of its [catch] block names [repository], which is not in
    scope there) and [createGithubPage] throws a type error (its fallback
    message reads [name] from the [null] repository); a rejected upload
    whose response body has no message throws the same reference error;
    and so the example script of the module ends in that error. *)
Theorem expected_failures_throw :
  fst (uploadFileToRepository (stock_host None no_uuid) "index.html"
         "<html></html>" fresh)
  = Throw (ReferenceError "repository")
  /\ fst (createGithubPage (stock_host None no_uuid) fresh)
     = Throw (TypeError VNull "name")
  /\ fst (uploadFileToRepository (answering (Rejected server_error))
            "index.html" "<html></html>" provisioned)
     = Throw (ReferenceError "repository")
  /\ fst (run_script (stock_host None no_uuid) example_script fresh)
     = Throw (ReferenceError "repository").
Proof. repeat split. Qed.

(** ** getRepository when the remote side refuses *)

(** C4, as stated, fails: against a remote side answering 404 with a
    message, [getRepository("missing-repo")] on a provisioned session
    sends its request and completes normally with [undefined]; the
    caller is handed no failure result. *)
Lemma getRepository_not_found_returns_undefined :
  let host := answering (Rejected not_found) in
  let call := getRepository host "missing-repo" provisioned in
  repository (this provisioned) = VObj [("name", VStr "demo-site")]
  /\ network (world (snd call))
     = [mkRequest "GET /repos/octo-user/missing-repo"
          (VObj [("owner", VStr "octo-user"); ("repo", VStr "missing-repo")])]
  /\ fst call = Normal VUndefined
  /\ ~ surfaces_failure (fst call).
Proof.
  cbv zeta. repeat split. intro H. apply H. reflexivity.
Qed.

(** C4, amended.  When the request of [getRepository(name)] is rejected
    by the remote side, the call logs the message of the response body
    when there is one and its fallback message otherwise, evaluates to
    [undefined], and leaves the session, its Repository included,
    exactly as it was before the call. *)
Theorem getRepository_rejected
  (host : Host) (api : Remote) (st : State) (name : string)
  (owner why : Value) :
  global_octokit host = Some api ->
  get (user (this st)) "login" = Normal owner ->
  api (network (world st))
      (mkRequest ("GET /repos/" ++ to_string owner ++ "/" ++ name)
         (VObj [("owner", owner); ("repo", VStr name)]))
  = Rejected why ->
  nullish why = false ->
  getRepository host name st =
  (Normal VUndefined,
   mkState (this st)
     (mkWorld
        (console (world st)
           ++ [reported why ("Can't get the detail of the repository " ++ name)])
        (network (world st)
           ++ [mkRequest ("GET /repos/" ++ to_string owner ++ "/" ++ name)
                 (VObj [("owner", owner); ("repo", VStr name)])])
        (drawn (world st)))).
Proof.
  intros Hapi Hlogin Hreject Hwhy. destruct_state st.
  unfold reported. js_run. rewrite Hlogin, Hapi. cbn. rewrite Hreject.
  destruct why; try discriminate; cbn; repeat js_case; reflexivity.
Qed.

Lemma getRepository_rejected_witness :
  getRepository (answering (Rejected not_found)) "missing-repo" provisioned =
  (Normal VUndefined,
   mkState (this provisioned)
     (mkWorld [VStr "Not Found"]
        [mkRequest "GET /repos/octo-user/missing-repo"
           (VObj [("owner", VStr "octo-user"); ("repo", VStr "missing-repo")])]
        0)).
Proof.
  apply (getRepository_rejected (answering (Rejected not_found))
           (fun _ _ => Rejected not_found) provisioned "missing-repo"
           (VStr "octo-user") not_found);
    reflexivity.
Defined.

(** The Repository is replaced only by a request that was fulfilled:
    where [octokit] does not resolve it is never touched. *)
Lemma getRepository_unbound_keeps_session
  (token : option string) (uuid : nat -> string) (name : string) (st : State) :
  this (snd (getRepository (stock_host token uuid) name st)) = this st
  /\ network (world (snd (getRepository (stock_host token uuid) name st)))
     = network (world st).
Proof. destruct_state st. js_run. repeat js_case; split; reflexivity. Qed.

(** ** createRepository *)

(** C5.  In the module as written [createRepository], with or without a
    name, sends no request and draws no identifier: the [try] block
    throws at [octokit] before the argument of the request is evaluated,
    and the call only logs its fallback message. *)
Theorem createRepository_sends_nothing
  (token : option string) (uuid : nat -> string) (name : Value) (st : State) :
  createRepository (stock_host token uuid) name st =
  (Normal VUndefined,
   mkState (this st)
     (mkWorld
        (console (world st)
           ++ [VStr "Can't create a new repository. Please try again."])
        (network (world st)) (drawn (world st)))).
Proof. destruct_state st. reflexivity. Qed.

(** Where [octokit] does resolve, a call without a name sends the
    documented default, built from the next draw of the generator. *)
Lemma createRepository_default_name
  (host : Host) (api : Remote) (name : Value) (st : State) :
  global_octokit host = Some api ->
  nullish name = true ->
  let st' := snd (createRepository host name st) in
  network (world st') =
  (network (world st)
     ++ [mkRequest "POST /user/repos"
           (VObj [("name",
                   VStr ("ICON Web Portfolio "
                         ++ uuidv4 host (drawn (world st))))])])%list
  /\ drawn (world st') = S (drawn (world st)).
Proof.
  intros Hapi Hname. destruct_state st. js_run. rewrite Hapi, Hname. cbn.
  repeat js_case; split; reflexivity.
Qed.

(** ** uploadFileToRepository *)

(** C6.  In the module as written [uploadFileToRepository] sends no
    request from any session; on a session whose User and Repository are
    set it throws the reference error of its [catch] block instead of
    issuing the PUT. *)
Theorem upload_sends_nothing
  (token : option string) (uuid : nat -> string)
  (filePath content : string) (st : State) :
  network (world (snd (uploadFileToRepository (stock_host token uuid)
                         filePath content st)))
  = network (world st)
  /\ fst (uploadFileToRepository (stock_host token uuid) filePath content
            provisioned)
     = Throw (ReferenceError "repository").
Proof.
  split; [|reflexivity].
  destruct_state st. js_run. repeat js_case; reflexivity.
Qed.

(** Where [octokit] does resolve, exactly the documented PUT is sent. *)
Lemma upload_request
  (host : Host) (api : Remote) (filePath content : string) (st : State)
  (owner repo : Value) :
  global_octokit host = Some api ->
  get (user (this st)) "login" = Normal owner ->
  get (repository (this st)) "name" = Normal repo ->
  network (world (snd (uploadFileToRepository host filePath content st))) =
  (network (world st)
     ++ [mkRequest
           ("PUT /repos/" ++ to_string owner ++ "/" ++ to_string repo
            ++ "/contents/" ++ filePath)
           (VObj [("owner", owner);
                  ("repo", repo);
                  ("path", VStr filePath);
                  ("message", VStr ("create a new " ++ filePath));
                  ("content", VStr (convertToBase64 content))])])%list.
Proof.
  intros Hapi Hlogin Hname. destruct_state st. js_run.
  destruct (falsy u || falsy r); cbn; rewrite Hlogin; cbn;
    rewrite Hname, Hapi; cbn; repeat js_case; reflexivity.
Qed.

(** ** createGithubPage *)

(** C7, as stated, fails: even against a remote side that creates the
    site and answers with its URL, the call evaluates to [undefined]; the
    URL is only written to the console. *)
Lemma createGithubPage_returns_no_url :
  let host := answering (Fulfilled pages_created) in
  let call := createGithubPage host provisioned in
  network (world (snd call))
  = [pages_request (VStr "octo-user") (VStr "demo-site")]
  /\ console (world (snd call))
     = [VStr "https://octo-user.github.io/demo-site/ is being created"]
  /\ fst call = Normal VUndefined
  /\ fst call <> Normal (VStr "https://octo-user.github.io/demo-site/").
Proof. cbv zeta. repeat split. discriminate. Qed.

(** C7, amended.  For a session with User and Repository set, the
    request [createGithubPage] addresses to the API handle is
    [POST /repos/{owner}/{repo}/pages] with source branch ["main"], path
    ["/"] and build type ["workflow"]; when it is fulfilled, the URL of
    the response is logged as ["{url} is being created"], the session is
    unchanged and the call evaluates to [undefined]. *)
Theorem createGithubPage_fulfilled
  (host : Host) (api : Remote) (st : State)
  (owner repo response data url : Value) :
  global_octokit host = Some api ->
  get (user (this st)) "login" = Normal owner ->
  get (repository (this st)) "name" = Normal repo ->
  api (network (world st)) (pages_request owner repo) = Fulfilled response ->
  get response "data" = Normal data ->
  get data "url" = Normal url ->
  createGithubPage host st =
  (Normal VUndefined,
   mkState (this st)
     (mkWorld
        (console (world st) ++ [VStr (to_string url ++ " is being created")])
        (network (world st) ++ [pages_request owner repo])
        (drawn (world st)))).
Proof.
  intros Hapi Hlogin Hname Hresp Hdata Hurl. destruct_state st.
  unfold pages_request in *. js_run.
  rewrite Hlogin. cbn. rewrite Hname, Hapi. cbn. rewrite Hresp, Hdata. cbn.
  rewrite Hurl. reflexivity.
Qed.

Lemma createGithubPage_fulfilled_witness :
  createGithubPage (answering (Fulfilled pages_created)) provisioned =
  (Normal VUndefined,
   mkState (this provisioned)
     (mkWorld [VStr "https://octo-user.github.io/demo-site/ is being created"]
        [pages_request (VStr "octo-user") (VStr "demo-site")] 0)).
Proof.
  apply (createGithubPage_fulfilled (answering (Fulfilled pages_created))
           (fun _ _ => Fulfilled pages_created) provisioned
           (VStr "octo-user") (VStr "demo-site") pages_created
           (VObj [("url", VStr "https://octo-user.github.io/demo-site/")])
           (VStr "https://octo-user.github.io/demo-site/"));
    reflexivity.
Defined.

(** ** authenticate with a token *)

(** C9.  In the module as written [authenticate] does store the handle
    it builds (for every token the constructor takes; a token it refuses
    leaves the field as it was), but the lookup of the user that follows
    sends no request and leaves the User as it was: [null] on a fresh
    client, whatever the username and the token. *)
Theorem authenticate_leaves_user
  (env : option string) (uuid : nat -> string)
  (username : string) (token : Value) (st : State) :
  let st' := snd (authenticate (stock_host env uuid) username token st) in
  octokit (this st')
  = (if acceptable (token_parameter (stock_host env uuid) token)
     then VObj [("auth", token_parameter (stock_host env uuid) token)]
     else octokit (this st))
  /\ user (this st') = user (this st)
  /\ network (world st') = network (world st)
  /\ user (this (snd (authenticate (stock_host env uuid) username token fresh)))
     = VNull.
Proof.
  destruct_state st. unfold token_parameter. cbn.
  destruct env as [[|a e]|]; destruct token as [| |[]|[|b t]|f];
    repeat split.
Qed.

(** Where [octokit] does resolve, the profile the remote side returns
    becomes the User. *)
Lemma getUser_fulfilled
  (host : Host) (api : Remote) (username : string) (st : State)
  (response profile : Value) :
  global_octokit host = Some api ->
  api (network (world st))
      (mkRequest ("GET /users/" ++ username)
         (VObj [("username", VStr username)]))
  = Fulfilled response ->
  get response "data" = Normal profile ->
  user (this (snd (getUser host username st))) = profile.
Proof.
  intros Hapi Hresp Hdata. destruct_state st. js_run.
  rewrite Hapi. cbn. rewrite Hresp, Hdata. cbn.
  repeat js_case; reflexivity.
Qed.

(** ** The unbound identifier *)

Lemma unset_step (host : Host) (op : Op) (st : State) :
  global_octokit host = None -> unset st -> unset (snd (run_op host op st)).
Proof.
  intros Hapi (Hu & Hr & Hn). destruct_state st. subst. unfold unset.
  destruct op; js_run; rewrite ?Hapi; cbn; repeat js_case; repeat split.
Qed.

Lemma unset_prelude (host : Host) (op : Op) (st : State) :
  unset st -> unset (snd (prelude host op st)).
Proof.
  intros (Hu & Hr & Hn). destruct_state st. subst. unfold unset.
  destruct op; js_run; repeat js_case; repeat split.
Qed.

Lemma unset_reachable (host : Host) (st : State) :
  global_octokit host = None -> reachable host st -> unset st.
Proof.
  intros Hapi Hreach. induction Hreach as [|op st _ IH].
  - repeat split.
  - apply unset_step; assumption.
Qed.

Lemma try_block_throws (host : Host) (op : Op) (st : State) :
  global_octokit host = None -> unset st ->
  exists e, fst (try_block host op st) = Throw e
            /\ unset (snd (try_block host op st)).
Proof.
  intros Hapi (Hu & Hr & Hn). destruct_state st. subst. unfold unset.
  destruct op; js_run; rewrite ?Hapi; cbn; eauto.
Qed.

(** C10.  Where the identifier [octokit] is bound by no scope, after
    any sequence of operations on a freshly constructed client the user
    and the repository are still [null] and no request has been sent;
    and whichever operation is called next, as soon as it enters its
    [try] block that block throws with still no request sent, and the
    operation continues in its [catch] block.  The one call that never
    gets to a [try] block, an [authenticate] whose token the constructor
    refuses, throws to the caller and sends nothing either. *)
Theorem octokit_never_bound (host : Host) (st : State) :
  global_octokit host = None ->
  reachable host st ->
  user (this st) = VNull
  /\ repository (this st) = VNull
  /\ network (world st) = []
  /\ (forall op : Op,
        constructs host op = true ->
        let entered := snd (prelude host op st) in
        exists e,
          fst (try_block host op entered) = Throw e
          /\ network (world (snd (try_block host op entered))) = []
          /\ run_op host op st
             = (catch_block host op e ;; ret VUndefined)
                 (snd (try_block host op entered)))
  /\ (forall op : Op,
        constructs host op = false ->
        fst (run_op host op st) = Throw (Reason not_a_string)
        /\ this (snd (run_op host op st)) = this st
        /\ network (world (snd (run_op host op st))) = []).
Proof.
  intros Hapi Hreach.
  destruct (unset_reachable host st Hapi Hreach) as (Hu & Hr & Hn).
  split; [assumption|]. split; [assumption|]. split; [assumption|]. split.
  - intros op Hc entered.
    destruct (try_block_throws host op entered Hapi)
      as (e & He & Hu' & Hr' & Hn').
    { apply unset_prelude. repeat split; assumption. }
    exists e. repeat split; try assumption.
    rewrite run_op_shape. unfold bind at 1.
    pose proof (prelude_normal host op st Hc) as Hp. subst entered.
    destruct (prelude host op st) as [[[]|e0] s]; cbn in *; [|discriminate].
    unfold bind at 1, try_catch.
    destruct (try_block host op s) as [[a|e1] s1]; cbn in *; [discriminate|].
    injection He as ->. reflexivity.
  - intros op Hc.
    destruct (prelude_refused host op st Hc) as (He & Ht & Hn').
    rewrite Hn' , Hn. repeat split; assumption.
Qed.

Lemma octokit_never_bound_witness :
  global_octokit (stock_host None no_uuid) = None
  /\ user (this (snd (run_op (stock_host None no_uuid)
                        (Authenticate "iconclub" VUndefined) fresh)))
     = VNull.
Proof.
  split; [reflexivity|].
  exact (proj1 (octokit_never_bound (stock_host None no_uuid) _ eq_refl
                  (reach_step _ (Authenticate "iconclub" VUndefined) fresh
                     (reach_fresh _)))).
Defined.

(** * Further properties of the class *)

(** ** What no operation ever does *)

(** X1.  On every host and from every state, an operation only adds to
    the console and hands at most one request to the remote side; nothing
    already logged or sent is taken back. *)
Theorem outside_world_append_only (host : Host) (op : Op) (st : State) :
  let st' := snd (run_op host op st) in
  (exists more, console (world st') = (console (world st) ++ more)%list)
  /\ (network (world st') = network (world st)
      \/ exists rq, network (world st') = (network (world st) ++ [rq])%list).
Proof.
  destruct_state st.
  destruct op; js_run; repeat js_case; split;
    rewrite <- ?app_assoc; eauto; exists []; rewrite app_nil_r; reflexivity.
Qed.

(** X2.  [uuidv4] is called by one operation only, [createRepository]
    without a name, and then exactly once and only where [octokit]
    resolves; every other call leaves the generator alone. *)
Theorem uuid_drawn_only_for_default_name
  (host : Host) (op : Op) (st : State) :
  drawn (world (snd (run_op host op st))) =
  match op with
  | CreateRepository name =>
      if nullish name && resolves host
      then S (drawn (world st)) else drawn (world st)
  | _ => drawn (world st)
  end.
Proof.
  destruct_state st. unfold resolves.
  destruct host as [tok uuid [api|] gr];
    destruct op; try destruct name; js_run; repeat js_case; reflexivity.
Qed.

(** X3.  Which fields an operation can write: [authenticate] never
    touches the repository, [getUser] writes nothing but the user,
    [createRepository] and [getRepository] nothing but the repository,
    and [uploadFileToRepository] and [createGithubPage] leave all three
    fields as they are, whatever the remote side answers. *)
Theorem fields_written_by (host : Host) (op : Op) (st : State) :
  let st' := snd (run_op host op st) in
  match op with
  | Authenticate _ _ => repository (this st') = repository (this st)
  | GetUser _ =>
      octokit (this st') = octokit (this st)
      /\ repository (this st') = repository (this st)
  | CreateRepository _ | GetRepository _ =>
      octokit (this st') = octokit (this st)
      /\ user (this st') = user (this st)
  | UploadFileToRepository _ _ | CreateGithubPage => this st' = this st
  end.
Proof.
  destruct_state st.
  destruct op; js_run; repeat js_case; repeat split.
Qed.

(** ** authenticate *)

(** X4.  What [authenticate] leaves in the [octokit] field, whatever
    becomes of the lookup of the user: the handle built with the token
    argument or, when that is [undefined], with [AUTH_TOKEN] (an explicit
    [null] is not replaced by the default); and when the constructor
    refuses the token (a value that is there and is not a string), the
    field as it was. *)
Theorem authenticate_always_stores_handle
  (host : Host) (username : string) (token : Value) (st : State) :
  let given :=
    match token with
    | VUndefined => of_env (AUTH_TOKEN host)
    | _ => token
    end in
  octokit (this (snd (authenticate host username token st)))
  = if acceptable given then VObj [("auth", given)] else octokit (this st).
Proof.
  destruct_state st. destruct host as [[[|a e]|] uuid api gr];
    destruct token as [| |[]|[|b t]|f]; js_run; repeat js_case; reflexivity.
Qed.

(** X5.  The warning about the token looks at the environment first:
    with a non-empty [AUTH_TOKEN], [authenticate] logs no warning for any
    token argument, an empty or [null] one included.  It then continues
    with [getUser] on the session holding the handle built with that
    argument, or, when the constructor refuses the argument, throws the
    constructor's error to the caller with the session untouched. *)
Theorem authenticate_env_token_silences_warning
  (host : Host) (env username : string) (token : Value) (st : State) :
  AUTH_TOKEN host = Some env ->
  env <> "" ->
  let given := match token with VUndefined => VStr env | _ => token end in
  authenticate host username token st =
  if acceptable given then getUser host username (with_handle given st)
  else (Throw (Reason not_a_string), st).
Proof.
  intros Henv Hne. destruct_state st. unfold with_handle.
  destruct env as [|a env]; [contradiction|].
  unfold authenticate, token_parameter. rewrite Henv.
  destruct token as [| |[]|[|b t]|f]; js_run; repeat js_case; reflexivity.
Qed.

Lemma authenticate_env_token_silences_warning_witness :
  authenticate configured_host "iconclub" (VStr "") fresh =
  getUser configured_host "iconclub" (with_handle (VStr "") fresh).
Proof.
  apply (authenticate_env_token_silences_warning configured_host "tok_env"
           "iconclub" (VStr "") fresh); [reflexivity | discriminate].
Defined.

(** ** getUser where the identifier resolves *)

(** X6.  When the request of [getUser] is fulfilled with a profile, the
    whole profile becomes the User, one [GET /users/{username}] is sent,
    and the line logged names the login of the profile, not the username
    that was asked for. *)
Theorem getUser_success
  (host : Host) (api : Remote) (username : string) (st : State)
  (response profile login : Value) :
  global_octokit host = Some api ->
  api (network (world st)) (users_request username) = Fulfilled response ->
  get response "data" = Normal profile ->
  get profile "login" = Normal login ->
  getUser host username st =
  (Normal VUndefined,
   mkState (mkClient (octokit (this st)) profile (repository (this st)))
     (sent (users_request username)
        (VStr (to_string login ++ " is authenticated")) st)).
Proof.
  intros Hapi Hresp Hdata Hlogin. destruct_state st.
  unfold sent, users_request in *. js_run.
  rewrite Hapi. cbn. rewrite Hresp, Hdata. cbn. rewrite Hlogin. reflexivity.
Qed.

Lemma getUser_success_witness :
  getUser (answering (Fulfilled canned)) "octo-user" fresh =
  (Normal VUndefined,
   mkState
     (mkClient VNull
        (VObj [("login", VStr "octo-user");
               ("name", VStr "demo-site");
               ("url", VStr "https://octo-user.github.io/demo-site/")])
        VNull)
     (mkWorld [VStr "octo-user is authenticated"]
        [users_request "octo-user"] 0)).
Proof.
  apply (getUser_success (answering (Fulfilled canned))
           (fun _ _ => Fulfilled canned) "octo-user" fresh canned
           (VObj [("login", VStr "octo-user");
                  ("name", VStr "demo-site");
                  ("url", VStr "https://octo-user.github.io/demo-site/")])
           (VStr "octo-user"));
    reflexivity.
Defined.

(** X7.  The User is assigned before it is read: when the request of
    [getUser] is fulfilled with a response whose data is [null] or
    [undefined], the User is overwritten with that value, whatever it was
    before, and only then does the call fall back to its failure
    message. *)
Theorem getUser_without_data
  (host : Host) (api : Remote) (username : string) (st : State)
  (response data : Value) :
  global_octokit host = Some api ->
  api (network (world st)) (users_request username) = Fulfilled response ->
  get response "data" = Normal data ->
  nullish data = true ->
  getUser host username st =
  (Normal VUndefined,
   mkState (mkClient (octokit (this st)) data (repository (this st)))
     (sent (users_request username)
        (VStr ("Can't get username for user " ++ username
               ++ ". Please try again.")) st)).
Proof.
  intros Hapi Hresp Hdata Hnull. destruct_state st.
  unfold sent, users_request in *. js_run.
  rewrite Hapi. cbn. rewrite Hresp, Hdata. cbn.
  destruct data; try discriminate; reflexivity.
Qed.

Lemma getUser_without_data_witness :
  getUser (answering (Fulfilled (VObj []))) "octo-user" provisioned =
  (Normal VUndefined,
   mkState
     (mkClient (VObj [("auth", VStr "tok_abc")]) VUndefined
        (VObj [("name", VStr "demo-site")]))
     (mkWorld [VStr "Can't get username for user octo-user. Please try again."]
        [users_request "octo-user"] 0)).
Proof.
  apply (getUser_without_data (answering (Fulfilled (VObj [])))
           (fun _ _ => Fulfilled (VObj [])) "octo-user" provisioned
           (VObj []) VUndefined);
    reflexivity.
Defined.

(** X8.  When the request of [getUser] is rejected, the session is left
    exactly as it was, the message of the response body (or the fallback
    naming the username) is logged, and the call evaluates to
    [undefined]. *)
Theorem getUser_rejected
  (host : Host) (api : Remote) (username : string) (st : State) (why : Value) :
  global_octokit host = Some api ->
  api (network (world st)) (users_request username) = Rejected why ->
  nullish why = false ->
  getUser host username st =
  (Normal VUndefined,
   mkState (this st)
     (sent (users_request username)
        (reported why ("Can't get username for user " ++ username
                       ++ ". Please try again.")) st)).
Proof.
  intros Hapi Hrej Hwhy. destruct_state st.
  unfold sent, users_request, reported in *. js_run.
  rewrite Hapi. cbn. rewrite Hrej.
  destruct why; try discriminate; cbn; repeat js_case; reflexivity.
Qed.

Lemma getUser_rejected_witness :
  getUser (answering (Rejected server_error)) "nobody" provisioned =
  (Normal VUndefined,
   mkState (this provisioned)
     (mkWorld [VStr "Can't get username for user nobody. Please try again."]
        [users_request "nobody"] 0)).
Proof.
  apply (getUser_rejected (answering (Rejected server_error))
           (fun _ _ => Rejected server_error) "nobody" provisioned
           server_error);
    reflexivity.
Defined.

(** ** createRepository where the identifier resolves *)

(** X9.  A name that is given is sent as it is, the empty string
    included (only [undefined] and [null] call for the default), and no
    identifier is drawn for it. *)
Theorem createRepository_named
  (host : Host) (api : Remote) (name : Value) (st : State) :
  global_octokit host = Some api ->
  nullish name = false ->
  let st' := snd (createRepository host name st) in
  network (world st') = (network (world st) ++ [repos_request name])%list
  /\ drawn (world st') = drawn (world st).
Proof.
  intros Hapi Hname. destruct_state st. unfold repos_request. js_run.
  rewrite Hapi, Hname. cbn. repeat js_case; split; reflexivity.
Qed.

Lemma createRepository_named_witness :
  network (world (snd (createRepository (answering (Fulfilled canned))
                         (VStr "") fresh)))
  = [repos_request (VStr "")]
  /\ drawn (world (snd (createRepository (answering (Fulfilled canned))
                          (VStr "") fresh)))
     = 0.
Proof.
  apply (createRepository_named (answering (Fulfilled canned))
           (fun _ _ => Fulfilled canned) (VStr "") fresh);
    reflexivity.
Defined.

(** X10.  When the request of [createRepository] is fulfilled, the data
    of the response replaces the Repository wholesale, the line logged
    names the repository as the remote side named it, and the call
    evaluates to [undefined]. *)
Theorem createRepository_success
  (host : Host) (api : Remote) (name : Value) (st : State)
  (response data created : Value) :
  global_octokit host = Some api ->
  let sent_name :=
    if nullish name then default_name host (drawn (world st)) else name in
  api (network (world st)) (repos_request sent_name) = Fulfilled response ->
  get response "data" = Normal data ->
  get data "name" = Normal created ->
  createRepository host name st =
  (Normal VUndefined,
   mkState (mkClient (octokit (this st)) (user (this st)) data)
     (mkWorld
        (console (world st) ++ [VStr (to_string created ++ " was created")])
        (network (world st) ++ [repos_request sent_name])
        (if nullish name then S (drawn (world st)) else drawn (world st)))).
Proof.
  intros Hapi sent_name Hresp Hdata Hname. destruct_state st.
  subst sent_name. unfold repos_request, default_name in *. js_run.
  rewrite Hapi. destruct (nullish name); cbn in *;
    rewrite Hresp, Hdata; cbn; rewrite Hname; reflexivity.
Qed.

Lemma createRepository_success_witness :
  createRepository (answering (Fulfilled canned)) VUndefined provisioned =
  (Normal VUndefined,
   mkState
     (mkClient (VObj [("auth", VStr "tok_abc")])
        (VObj [("login", VStr "octo-user")])
        (VObj [("login", VStr "octo-user");
               ("name", VStr "demo-site");
               ("url", VStr "https://octo-user.github.io/demo-site/")]))
     (mkWorld [VStr "demo-site was created"]
        [repos_request (VStr "ICON Web Portfolio ")] 1)).
Proof.
  apply (createRepository_success (answering (Fulfilled canned))
           (fun _ _ => Fulfilled canned) VUndefined provisioned canned
           (VObj [("login", VStr "octo-user");
                  ("name", VStr "demo-site");
                  ("url", VStr "https://octo-user.github.io/demo-site/")])
           (VStr "demo-site"));
    reflexivity.
Defined.

(** X11.  When the request of [createRepository] is rejected (a name
    that is taken, a token without the permission), the session keeps the
    Repository it had, the message of the response body or the fallback
    is logged, and the call evaluates to [undefined]. *)
Theorem createRepository_rejected
  (host : Host) (api : Remote) (name : Value) (st : State) (why : Value) :
  global_octokit host = Some api ->
  let sent_name :=
    if nullish name then default_name host (drawn (world st)) else name in
  api (network (world st)) (repos_request sent_name) = Rejected why ->
  nullish why = false ->
  createRepository host name st =
  (Normal VUndefined,
   mkState (this st)
     (mkWorld
        (console (world st)
           ++ [reported why "Can't create a new repository. Please try again."])
        (network (world st) ++ [repos_request sent_name])
        (if nullish name then S (drawn (world st)) else drawn (world st)))).
Proof.
  intros Hapi sent_name Hrej Hwhy. destruct_state st.
  subst sent_name. unfold repos_request, default_name, reported in *. js_run.
  rewrite Hapi. destruct (nullish name); cbn in *; rewrite Hrej;
    destruct why; try discriminate; cbn; repeat js_case; reflexivity.
Qed.

Lemma createRepository_rejected_witness :
  createRepository (answering (Rejected not_found)) (VStr "demo-site")
    provisioned =
  (Normal VUndefined,
   mkState (this provisioned)
     (mkWorld [VStr "Not Found"] [repos_request (VStr "demo-site")] 0)).
Proof.
  apply (createRepository_rejected (answering (Rejected not_found))
           (fun _ _ => Rejected not_found) (VStr "demo-site") provisioned
           not_found);
    reflexivity.
Defined.

(** X12.  Two successive calls without a name send the names made from
    two successive draws of the generator, in that order; the two
    requests are the same exactly when the generator repeats itself. *)
Theorem createRepository_twice_default
  (host : Host) (api : Remote) (st : State) :
  global_octokit host = Some api ->
  let n := drawn (world st) in
  let st1 := snd (createRepository host VUndefined st) in
  let st2 := snd (createRepository host VUndefined st1) in
  network (world st2) =
  (network (world st)
     ++ [repos_request (default_name host n);
         repos_request (default_name host (S n))])%list
  /\ (repos_request (default_name host n)
      = repos_request (default_name host (S n))
      <-> uuidv4 host n = uuidv4 host (S n)).
Proof.
  intros Hapi n st1 st2. split.
  - destruct (createRepository_default_name host api VUndefined st1 Hapi
                eq_refl) as [H2 D2].
    destruct (createRepository_default_name host api VUndefined st Hapi
                eq_refl) as [H1 D1].
    subst st2 st1 n. cbv zeta in *. rewrite H2, H1, D1, <- app_assoc.
    reflexivity.
  - unfold repos_request, default_name. split.
    + intro E. injection E as E. exact E.
    + intros ->. reflexivity.
Qed.

Lemma createRepository_twice_default_witness :
  network (world (snd (createRepository (answering (Fulfilled canned))
                         VUndefined
                         (snd (createRepository (answering (Fulfilled canned))
                                 VUndefined fresh)))))
  = [repos_request (VStr "ICON Web Portfolio ");
     repos_request (VStr "ICON Web Portfolio ")].
Proof.
  apply (createRepository_twice_default (answering (Fulfilled canned))
           (fun _ _ => Fulfilled canned) fresh).
  reflexivity.
Defined.

(** ** getRepository *)

(** X13.  Without a User ([null] or [undefined]) [getRepository] sends
    nothing on any host, even one where [octokit] resolves: it logs its
    fallback message, leaves the session as it was and evaluates to
    [undefined]. *)
Theorem getRepository_unauthenticated
  (host : Host) (name : string) (st : State) :
  nullish (user (this st)) = true ->
  getRepository host name st =
  (Normal VUndefined,
   mkState (this st)
     (mkWorld
        (console (world st)
           ++ [VStr ("Can't get the detail of the repository " ++ name)])
        (network (world st)) (drawn (world st)))).
Proof.
  intro Hu. destruct_state st. js_run.
  destruct u; try discriminate; reflexivity.
Qed.

Lemma getRepository_unauthenticated_witness :
  getRepository (answering (Fulfilled canned)) "demo-site" fresh =
  (Normal VUndefined,
   mkState (this fresh)
     (mkWorld [VStr "Can't get the detail of the repository demo-site"] [] 0)).
Proof.
  apply (getRepository_unauthenticated (answering (Fulfilled canned))
           "demo-site" fresh).
  reflexivity.
Defined.

(** X14.  When the request of [getRepository] is fulfilled, it was
    addressed to the login of the session's User as owner, the data of
    the response replaces the Repository, and the line logged names the
    repository as the remote side named it. *)
Theorem getRepository_success
  (host : Host) (api : Remote) (name : string) (st : State)
  (owner response data found : Value) :
  global_octokit host = Some api ->
  get (user (this st)) "login" = Normal owner ->
  api (network (world st)) (repo_request owner name) = Fulfilled response ->
  get response "data" = Normal data ->
  get data "name" = Normal found ->
  getRepository host name st =
  (Normal VUndefined,
   mkState (mkClient (octokit (this st)) (user (this st)) data)
     (sent (repo_request owner name)
        (VStr ("Successfully get detail of " ++ to_string found)) st)).
Proof.
  intros Hapi Hlogin Hresp Hdata Hname. destruct_state st.
  unfold sent, repo_request in *. js_run.
  rewrite Hlogin. cbn. rewrite Hapi. cbn. rewrite Hresp, Hdata. cbn.
  rewrite Hname. reflexivity.
Qed.

Lemma getRepository_success_witness :
  getRepository (answering (Fulfilled canned)) "other-site" provisioned =
  (Normal VUndefined,
   mkState
     (mkClient (VObj [("auth", VStr "tok_abc")])
        (VObj [("login", VStr "octo-user")])
        (VObj [("login", VStr "octo-user");
               ("name", VStr "demo-site");
               ("url", VStr "https://octo-user.github.io/demo-site/")]))
     (mkWorld [VStr "Successfully get detail of demo-site"]
        [repo_request (VStr "octo-user") "other-site"] 0)).
Proof.
  apply (getRepository_success (answering (Fulfilled canned))
           (fun _ _ => Fulfilled canned) "other-site" provisioned
           (VStr "octo-user") canned
           (VObj [("login", VStr "octo-user");
                  ("name", VStr "demo-site");
                  ("url", VStr "https://octo-user.github.io/demo-site/")])
           (VStr "demo-site"));
    reflexivity.
Defined.

(** ** uploadFileToRepository *)

(** X15.  In the module as written every call of
    [uploadFileToRepository] is rejected with the reference error for
    [repository], from every session and for every path and content; it
    sends nothing, changes no field, and logs nothing but the message of
    its guard when the guard applies. *)
Theorem upload_always_rejects_as_written
  (token : option string) (uuid : nat -> string)
  (filePath content : string) (st : State) :
  uploadFileToRepository (stock_host token uuid) filePath content st =
  (Throw (ReferenceError "repository"),
   mkState (this st)
     (mkWorld (console (world st) ++ guard_lines st)
        (network (world st)) (drawn (world st)))).
Proof.
  destruct_state st. unfold guard_lines. js_run.
  destruct (falsy u || falsy r); cbn; rewrite ?app_nil_r;
    destruct u; cbn; try reflexivity; destruct r; reflexivity.
Qed.

(** X16.  Where [octokit] resolves and the request is fulfilled,
    [uploadFileToRepository] has sent exactly the PUT for the path, with
    the login of the User as owner, the name of the Repository as repo,
    the fixed commit message and the base64 content; it logs
    ["{filePath} is uploaded successfully"], ignores what the response
    holds and changes no field. *)
Theorem upload_success
  (host : Host) (api : Remote) (filePath content : string) (st : State)
  (owner repo response : Value) :
  global_octokit host = Some api ->
  get (user (this st)) "login" = Normal owner ->
  get (repository (this st)) "name" = Normal repo ->
  api (network (world st)) (contents_request owner repo filePath content)
  = Fulfilled response ->
  uploadFileToRepository host filePath content st =
  (Normal VUndefined,
   mkState (this st)
     (mkWorld
        (console (world st) ++ guard_lines st
           ++ [VStr (filePath ++ " is uploaded successfully")])
        (network (world st) ++ [contents_request owner repo filePath content])
        (drawn (world st)))).
Proof.
  intros Hapi Hlogin Hname Hresp. destruct_state st.
  unfold guard_lines, contents_request in *. js_run.
  destruct (falsy u || falsy r); cbn; rewrite Hlogin; cbn;
    rewrite Hname, Hapi; cbn; rewrite Hresp; cbn; rewrite <- ?app_assoc; cbn;
    reflexivity.
Qed.

Lemma upload_success_witness :
  uploadFileToRepository (answering (Fulfilled (VObj []))) "index.html"
    "<html></html>" provisioned =
  (Normal VUndefined,
   mkState (this provisioned)
     (mkWorld [VStr "index.html is uploaded successfully"]
        [contents_request (VStr "octo-user") (VStr "demo-site") "index.html"
           "<html></html>"]
        0)).
Proof.
  apply (upload_success (answering (Fulfilled (VObj [])))
           (fun _ _ => Fulfilled (VObj [])) "index.html" "<html></html>"
           provisioned (VStr "octo-user") (VStr "demo-site") (VObj []));
    reflexivity.
Defined.

(** X17.  Where [octokit] resolves and the upload is rejected (the path
    exists already, say), the outcome turns on the response body: with a
    message, the message is logged and the call evaluates to
    [undefined]; without one, the fallback is built from the global
    [repository], and where there is none the call throws the reference
    error.  The request was sent and no field changes either way. *)
Theorem upload_rejected
  (host : Host) (api : Remote) (filePath content : string) (st : State)
  (owner repo why : Value) :
  global_octokit host = Some api ->
  get (user (this st)) "login" = Normal owner ->
  get (repository (this st)) "name" = Normal repo ->
  api (network (world st)) (contents_request owner repo filePath content)
  = Rejected why ->
  nullish why = false ->
  let message :=
    optional (optional (optional why "response") "data") "message" in
  let outcome : Completion Value * list Value :=
    if nullish message then
      match global_repository host with
      | None => (Throw (ReferenceError "repository"), [])
      | Some v =>
          (Normal VUndefined,
           [VStr ("Can't upload " ++ filePath ++ " to the repository "
                  ++ to_string v)])
      end
    else (Normal VUndefined, [message]) in
  uploadFileToRepository host filePath content st =
  (fst outcome,
   mkState (this st)
     (mkWorld
        (console (world st) ++ guard_lines st ++ snd outcome)
        (network (world st) ++ [contents_request owner repo filePath content])
        (drawn (world st)))).
Proof.
  intros Hapi Hlogin Hname Hrej Hwhy. destruct_state st.
  unfold guard_lines, contents_request in *. js_run.
  destruct (falsy u || falsy r); cbn; rewrite Hlogin; cbn;
    rewrite Hname, Hapi; cbn; rewrite Hrej;
    destruct why; try discriminate; cbn;
    repeat js_case; cbn; rewrite <- ?app_assoc, ?app_nil_r; cbn; reflexivity.
Qed.

Lemma upload_rejected_witness :
  uploadFileToRepository (answering (Rejected not_found)) "index.html"
    "<html></html>" provisioned =
  (Normal VUndefined,
   mkState (this provisioned)
     (mkWorld [VStr "Not Found"]
        [contents_request (VStr "octo-user") (VStr "demo-site") "index.html"
           "<html></html>"]
        0)).
Proof.
  apply (upload_rejected (answering (Rejected not_found))
           (fun _ _ => Rejected not_found) "index.html" "<html></html>"
           provisioned (VStr "octo-user") (VStr "demo-site") not_found);
    reflexivity.
Defined.

Lemma upload_unset_logs_precondition_witness :
  (exists rest,
     console (world (snd (uploadFileToRepository (answering (Fulfilled canned))
                            "index.html" "<html></html>" fresh)))
     = (console (world fresh)
          ++ VStr "Please authenticate and create repository methods before uploading a file"
          :: rest)%list)
  /\ network (world (snd (uploadFileToRepository
                            (answering (Fulfilled canned))
                            "index.html" "<html></html>" fresh)))
     = network (world fresh)
  /\ this (snd (uploadFileToRepository (answering (Fulfilled canned))
                  "index.html" "<html></html>" fresh))
     = this fresh.
Proof.
  apply (upload_unset_logs_precondition (answering (Fulfilled canned)) fresh
           "index.html" "<html></html>").
  left. reflexivity.
Defined.

(** ** createGithubPage *)

(** X19.  In the module as written [createGithubPage] sends nothing and
    changes nothing, and what it does turns on the Repository alone:
    while it is [null] or [undefined] the call throws the type error of
    reading [name] from it, with nothing logged; otherwise it logs
    ["Can't create a Github Pages for the repository {name}"] and
    evaluates to [undefined]. *)
Theorem createGithubPage_as_written
  (token : option string) (uuid : nat -> string) (st : State) :
  createGithubPage (stock_host token uuid) st =
  if nullish (repository (this st))
  then (Throw (TypeError (repository (this st)) "name"), st)
  else
    (Normal VUndefined,
     mkState (this st)
       (mkWorld
          (console (world st)
             ++ [VStr ("Can't create a Github Pages for the repository "
                       ++ to_string (optional (repository (this st)) "name"))])
          (network (world st)) (drawn (world st)))).
Proof.
  destruct_state st. js_run.
  destruct u; cbn; destruct r; reflexivity.
Qed.

(** X20.  On any host whose rejections are error objects,
    [createGithubPage] throws only for want of a Repository: when the
    Repository is neither [null] nor [undefined] the call evaluates to
    [undefined] and leaves the fields as they are, whatever the User is
    and whatever the remote side answers. *)
Theorem createGithubPage_throws_only_without_repository
  (host : Host) (st : State) :
  rejects_with_objects host ->
  nullish (repository (this st)) = false ->
  fst (createGithubPage host st) = Normal VUndefined
  /\ this (snd (createGithubPage host st)) = this st.
Proof.
  intros Hsane Hrepo. destruct_state st. unfold rejects_with_objects in Hsane.
  destruct (global_octokit host) as [api|] eqn:Hapi.
  - specialize (fun h r v => Hsane api h r v eq_refl).
    js_run; rewrite ?Hapi; unfold get; cbn.
    destruct r; try discriminate; destruct u; cbn;
      repeat match goal with
        | |- context [api ?h ?r] =>
            let E := fresh "E" in
            destruct (api h r) as [?|[]] eqn:E; cbn;
            try (apply Hsane in E; cbn in E; discriminate E)
        | _ => js_case
        end; split; reflexivity.
  - js_run; rewrite ?Hapi; unfold get; cbn.
    destruct r; try discriminate; destruct u; cbn; split; reflexivity.
Qed.

Lemma answering_rejects_with_objects (why : Value) :
  nullish why = false -> rejects_with_objects (answering (Rejected why)).
Proof.
  intros Hwhy api history rq v Hapi Hrej. cbn in Hapi.
  injection Hapi as <-. injection Hrej as <-. exact Hwhy.
Defined.

Lemma createGithubPage_throws_only_without_repository_witness :
  fst (createGithubPage (answering (Rejected server_error)) provisioned)
  = Normal VUndefined
  /\ this (snd (createGithubPage (answering (Rejected server_error))
                  provisioned))
     = this provisioned.
Proof.
  apply (createGithubPage_throws_only_without_repository
           (answering (Rejected server_error)) provisioned).
  - apply answering_rejects_with_objects. reflexivity.
  - reflexivity.
Defined.

Lemma siblings_never_throw_witness :
  fst (run_op (answering (Rejected server_error))
         (Authenticate "nobody" (VStr "tok_abc")) provisioned)
  = Normal VUndefined.
Proof.
  apply (siblings_never_throw (answering (Rejected server_error))
           (Authenticate "nobody" (VStr "tok_abc")) provisioned).
  - apply answering_rejects_with_objects. reflexivity.
  - reflexivity.
  - exact I.
Defined.

(** ** The calls in sequence *)

(** X22.  The script at the end of the module, as written and on any
    host without stray globals: it dies in its third call with the
    reference error for [repository], having sent no request; the fourth
    call is never made, User and Repository are still [null], and the
    console holds the warning about the token (when [AUTH_TOKEN] is
    unset or empty) and the three failure messages. *)
Theorem example_script_as_written
  (token : option string) (uuid : nat -> string) :
  run_script (stock_host token uuid) example_script fresh =
  (Throw (ReferenceError "repository"),
   mkState (mkClient (VObj [("auth", of_env token)]) VNull VNull)
     (mkWorld
        ((if falsy (of_env token)
          then [VStr "Can't authenticate to Octokit with invalid token. Please recheck your token"]
          else [])
         ++ [VStr "Can't get username for user iconclub. Please try again.";
             VStr "Can't create a new repository. Please try again.";
             VStr "Please authenticate and create repository methods before uploading a file"])
        [] 0)).
Proof.
  destruct token as [[|a s]|]; reflexivity.
Qed.

(** X23.  Where [octokit] resolves and the remote side fulfils all four
    requests, the four calls of the script thread the session through:
    the upload and the Pages request are addressed to the login of the
    profile the first call stored and to the name of the repository the
    second call stored (not to the arguments the caller passed), the four
    requests leave in order, and the four success lines are the last
    four lines of the console.  The token is one the constructor takes:
    none, or a string. *)
Theorem provisioning_composes
  (host : Host) (api : Remote) (username : string) (token name : Value)
  (filePath content : string)
  (r1 profile login r2 repo created r3 r4 data url : Value) :
  global_octokit host = Some api ->
  acceptable (token_parameter host token) = true ->
  nullish name = false ->
  let q1 := users_request username in
  let q2 := repos_request name in
  let q3 := contents_request login created filePath content in
  let q4 := pages_request login created in
  api [] q1 = Fulfilled r1 ->
  get r1 "data" = Normal profile ->
  get profile "login" = Normal login ->
  falsy profile = false ->
  api [q1] q2 = Fulfilled r2 ->
  get r2 "data" = Normal repo ->
  get repo "name" = Normal created ->
  falsy repo = false ->
  api [q1; q2] q3 = Fulfilled r3 ->
  api [q1; q2; q3] q4 = Fulfilled r4 ->
  get r4 "data" = Normal data ->
  get data "url" = Normal url ->
  let st' :=
    snd (run_script host (provisioning username token name filePath content)
           fresh) in
  fst (run_script host (provisioning username token name filePath content)
         fresh) = Normal tt
  /\ user (this st') = profile
  /\ repository (this st') = repo
  /\ network (world st') = [q1; q2; q3; q4]
  /\ exists before,
       console (world st') =
       (before ++
        [VStr (to_string login ++ " is authenticated");
         VStr (to_string created ++ " was created");
         VStr (filePath ++ " is uploaded successfully");
         VStr (to_string url ++ " is being created")])%list.
Proof.
  intros Hapi Htoken Hname q1 q2 q3 q4 H1 D1 L1 F1 H2 D2 N2 F2 H3 H4 D4 U4.
  subst q1 q2 q3 q4.
  unfold users_request, repos_request, contents_request, pages_request in *.
  unfold provisioning, run_script, run_op, authenticate, new_Octokit, fresh.
  cbv zeta. rewrite !Htoken. clear Htoken. js_run.
  rewrite Hapi.
  destruct (falsy (of_env (AUTH_TOKEN host)) && falsy _); cbn;
    rewrite H1, D1; cbn; rewrite L1, Hname; cbn; rewrite H2, D2; cbn;
    rewrite N2; cbn; rewrite F1, F2; cbn; rewrite L1; cbn; rewrite N2; cbn;
    rewrite H3; cbn; rewrite L1; cbn; rewrite N2; cbn; rewrite H4, D4; cbn;
    rewrite U4; cbn; repeat split.
  - eexists [_]. reflexivity.
  - exists []. reflexivity.
Qed.

Lemma provisioning_composes_witness :
  network (world (snd (run_script (answering (Fulfilled canned))
                         (provisioning "someone" (VStr "tok_abc")
                            (VStr "my-site") "index.html" "<html></html>")
                         fresh)))
  = [users_request "someone";
     repos_request (VStr "my-site");
     contents_request (VStr "octo-user") (VStr "demo-site") "index.html"
       "<html></html>";
     pages_request (VStr "octo-user") (VStr "demo-site")].
Proof.
  apply (provisioning_composes (answering (Fulfilled canned))
           (fun _ _ => Fulfilled canned) "someone" (VStr "tok_abc")
           (VStr "my-site") "index.html" "<html></html>"
           canned
           (VObj [("login", VStr "octo-user");
                  ("name", VStr "demo-site");
                  ("url", VStr "https://octo-user.github.io/demo-site/")])
           (VStr "octo-user")
           canned
           (VObj [("login", VStr "octo-user");
                  ("name", VStr "demo-site");
                  ("url", VStr "https://octo-user.github.io/demo-site/")])
           (VStr "demo-site")
           canned canned
           (VObj [("login", VStr "octo-user");
                  ("name", VStr "demo-site");
                  ("url", VStr "https://octo-user.github.io/demo-site/")])
           (VStr "https://octo-user.github.io/demo-site/"));
    reflexivity.
Defined.

(** ** The shape of the encoded content *)

Lemma length_Buffer_from (s : string) :
  List.length (Buffer_from s) = String.length s.
Proof.
  unfold Buffer_from, list_byte_of_string. rewrite length_map.
  induction s as [|a s IH]; cbn; congruence.
Qed.

(** X24.  The content sent for a file of n bytes is four times
    ceil(n / 3) characters long: whole groups of four, and nothing for
    the empty file. *)
Theorem convertToBase64_length (content : string) :
  String.length (convertToBase64 content)
  = 4 * ((String.length content + 2) / 3).
Proof.
  unfold convertToBase64. rewrite toString_base64_length, length_Buffer_from.
  reflexivity.
Qed.

Lemma digit_character (n : N) :
  (n < 64)%N -> base64_character (digit n) = true.
Proof. intro H. unfold base64_character. now rewrite sextet_digit. Qed.

(** X25.  Every character of the content sent is one of the 64 digits
    of the alphabet or the padding character, whatever bytes the file
    holds. *)
Theorem convertToBase64_characters (content : string) :
  forallb base64_character (list_ascii_of_string (convertToBase64 content))
  = true.
Proof.
  unfold convertToBase64. generalize (Buffer_from content) as b. intro b.
  induction b as [|x|x y|x y z l IH] using list_ind_by_threes.
  - reflexivity.
  - pose proof (to_N_lt x). cbn [toString_base64 list_ascii_of_string forallb].
    rewrite !digit_character by lia. reflexivity.
  - pose proof (to_N_lt x). pose proof (to_N_lt y).
    cbn [toString_base64 list_ascii_of_string forallb].
    rewrite !digit_character by lia. reflexivity.
  - pose proof (to_N_lt x). pose proof (to_N_lt y). pose proof (to_N_lt z).
    cbn [toString_base64 list_ascii_of_string forallb].
    rewrite !digit_character by lia. fold toString_base64. rewrite IH.
    reflexivity.
Qed.
